(** * The GLIF neuron model of NEST (models/glif.h)

    A shallow embedding of the [nest::glif] class: its parameter, state,
    variable and buffer structs, the model-variant lookup table, the
    recordable accessors, the connection handshake and the
    copy-validate-commit configuration update.

    Conventions.
    - A C++ [double] is idealised as a real number ([R]); a computation that
      would produce NaN or Inf (a division by zero) is modelled as [None].
    - [std::vector<double>] is a [list R]; an unchecked [operator[]] read is a
      list lookup, [None] standing for a read past the end.
    - A C++ member function that may throw is a computation in the monad
      [M]: it takes the node and returns either a value or the exception
      thrown, together with the node as it is at that point. *)

From Stdlib Require Import Reals Lra ZArith Lia Ascii.
From stdpp Require Import base option list strings gmap pretty.

#[global] Instance R_eq_dec : EqDecision R := Req_dec_T.
#[global] Instance Rlt_rel_dec : RelDecision Rlt := Rlt_dec.
#[global] Instance Rle_rel_dec : RelDecision Rle := Rle_dec.

(** ** Types of the NEST kernel used by the header *)

(** [nest::port] and [long]. *)
Definition port := Z.

(** The kernel exceptions the model can raise. *)
Inductive KernelException :=
  | BadProperty (msg : string)
  | UnknownReceptorType (receptor_type : port) (name : string)
  | IllegalConnection (msg : string).

(** ** The structs of [class glif] *)

Definition model_type := string.

Record Parameters_ := mkParameters {
  V_reset_ : R;
  th_inf_ : R;
  G_ : R;
  E_L_ : R;
  C_m_ : R;
  t_ref_ : R;
  a_spike_ : R;
  b_spike_ : R;
  voltage_reset_a_ : R;
  voltage_reset_b_ : R;
  a_voltage_ : R;
  b_voltage_ : R;
  asc_init_ : list R;
  k_ : list R;
  asc_amps_ : list R;
  r_ : list R;
  V_dynamics_method_ : string;
  glif_model_ : model_type
}.

Record State_ := mkState {
  V_m_ : R;
  ASCurrents_ : list R;
  ASCurrents_sum_ : R;
  threshold_ : R;
  I_ : R
}.

Record Variables_ := mkVariables {
  t_ref_remaining_ : R;
  t_ref_total_ : R;
  last_spike_ : R;
  last_voltage_ : R;
  method_ : Z
}.

(** [nest::RingBuffer] holds one accumulated value per delay slot. *)
Definition RingBuffer := list R.

(** A [nest::DataLoggingRequest] as far as the node sees it: the identity of
    the requesting device and the names it wants to record. *)
Record DataLoggingRequest := mkDLR {
  dlr_sender : Z;
  dlr_record_from : list string
}.

(** [nest::UniversalDataLogger<glif>]: the devices connected so far. *)
Definition UniversalDataLogger := list DataLoggingRequest.

Record Buffers_ := mkBuffers {
  spikes_ : RingBuffer;
  currents_ : RingBuffer;
  logger_ : UniversalDataLogger
}.

(** The spike history kept by the base class [Archiving_Node]. *)
Definition Archiving_Node := list R.

Record glif := mkGlif {
  archive : Archiving_Node;
  P_ : Parameters_;
  S_ : State_;
  V_ : Variables_;
  B_ : Buffers_
}.

(** The model uses off-grid events. *)
Definition is_off_grid (n : glif) : bool := true.

(** ** The model-variant lookup table *)

(** The initialiser list of [model_type_lu], in source order. *)
Definition model_type_lu_entries : list (string * Z) :=
  [ ("lif", 1); ("glif_lif", 1); ("1", 1);
    ("lif_r", 2); ("glif_lif_r", 2); ("2", 2);
    ("lif_asc", 3); ("glif_lif_asc", 3); ("3", 3);
    ("lif_r_asc", 4); ("glif_lif_r_asc", 4); ("4", 4);
    ("lif_r_asc_a", 5); ("glif_lif_r_asc_a", 5); ("5", 5) ]%Z.

(** [std::map<std::string, long>] built from the initialiser list; as with
    [std::map], the first entry of a repeated key would win. *)
Definition model_type_lu : gmap string Z := list_to_map model_type_lu_entries.

(** ** Recordable accessors *)

Definition get_V_m_ (n : glif) : R := V_m_ (S_ n).

(** [return S_.ASCurrents_[ 0 ];] -- [None] is the read past the end of an
    empty vector. *)
Definition get_AScurrents_sum_ (n : glif) : option R := ASCurrents_ (S_ n) !! 0%nat.

(** ** Member functions that may throw *)

(** A member function of the node: the value returned or the exception
    thrown, and the node afterwards. *)
Definition M (A : Type) : Type := glif → (KernelException + A) * glif.

#[global] Instance M_ret : MRet M := λ A (a : A) n, (inr a, n).
#[global] Instance M_bind : MBind M := λ A B (f : A → M B) (m : M A) n,
  match m n with
  | (inl e, n') => (inl e, n')
  | (inr a, n') => f a n'
  end.

Definition throw {A} (e : KernelException) : M A := λ n, (inl e, n).
Definition gets {A} (f : glif → A) : M A := λ n, (inr (f n), n).
Definition modify (f : glif → glif) : M unit := λ n, (inr tt, f n).

(** A call on a temporary or on a value: only its exception reaches the node. *)
Definition lift {A} (r : KernelException + A) : M A := λ n, (r, n).

(** A call on the data logger held in [B_]. *)
Definition on_logger {A}
    (f : UniversalDataLogger → (KernelException + A) * UniversalDataLogger) : M A :=
  λ n, let '(r, l) := f (logger_ (B_ n)) in
       (r, mkGlif (archive n) (P_ n) (S_ n) (V_ n)
                  (mkBuffers (spikes_ (B_ n)) (currents_ (B_ n)) l)).

(** A call on the [Archiving_Node] base sub-object. *)
Definition on_archive {A}
    (f : Archiving_Node → (KernelException + A) * Archiving_Node) : M A :=
  λ n, let '(r, a) := f (archive n) in
       (r, mkGlif a (P_ n) (S_ n) (V_ n) (B_ n)).

(** The outcome of a call and the node it leaves behind. *)
Definition outcome {A} (m : M A) (n : glif) : KernelException + A := fst (m n).
Definition node_after {A} (m : M A) (n : glif) : glif := snd (m n).

(** ** The status dictionary *)

Inductive Datum :=
  | DoubleDatum (x : R)
  | IntegerDatum (z : Z)
  | StringDatum (s : string)
  | DoubleVectorDatum (v : list R).

Abbreviation DictionaryDatum := (gmap string Datum).

(** ** Connection handshake and configuration update *)

Section Node.

(** Functions the header calls but does not define. *)
(** [Node::get_name], the name of the model the node belongs to. *)
Variable get_name : glif → string.
(** [Parameters_::set], called on a copy of the parameters. *)
Variable Parameters_set : DictionaryDatum → Parameters_ → KernelException + Parameters_.
(** [State_::set], called on a copy of the state, with the parameters to
    validate against. *)
Variable State_set : DictionaryDatum → Parameters_ → State_ → KernelException + State_.
(** [Archiving_Node::set_status]. *)
Variable Archiving_Node_set_status :
  DictionaryDatum → Archiving_Node → (KernelException + unit) * Archiving_Node.
(** [UniversalDataLogger::connect_logging_device], with the static
    [recordablesMap_] as its second argument. *)
Variable connect_logging_device :
  DataLoggingRequest → UniversalDataLogger → (KernelException + port) * UniversalDataLogger.

Definition handles_test_event_SpikeEvent (receptor_type : port) : M port :=
  if decide (receptor_type ≠ 0%Z)
  then name ← gets get_name; throw (UnknownReceptorType receptor_type name)
  else mret 0%Z.

Definition handles_test_event_CurrentEvent (receptor_type : port) : M port :=
  if decide (receptor_type ≠ 0%Z)
  then name ← gets get_name; throw (UnknownReceptorType receptor_type name)
  else mret 0%Z.

Definition handles_test_event_DataLoggingRequest
    (dlr : DataLoggingRequest) (receptor_type : port) : M port :=
  if decide (receptor_type ≠ 0%Z)
  then name ← gets get_name; throw (UnknownReceptorType receptor_type name)
  else on_logger (connect_logging_device dlr).

Definition set_status (d : DictionaryDatum) : M unit :=
  ptmp0 ← gets P_;
  ptmp ← lift (Parameters_set d ptmp0);
  stmp0 ← gets S_;
  stmp ← lift (State_set d ptmp stmp0);
  _ ← on_archive (Archiving_Node_set_status d);
  modify (λ n, mkGlif (archive n) ptmp stmp (V_ n) (B_ n)).

End Node.

(** ** Parameter validation *)

Definition to_lower_ascii (c : ascii) : ascii :=
  let n := nat_of_ascii c in
  if (65 <=? n)%nat && (n <=? 90)%nat then ascii_of_nat (n + 32) else c.

Fixpoint to_lower (s : string) : string :=
  match s with
  | EmptyString => EmptyString
  | String c s' => String (to_lower_ascii c) (to_lower s')
  end.

(** The tokens of [V_dynamics_method] and the solver flag each selects
    ([Variables_::method_]: 0 linear forward Euler, 1 linear exact). *)
Definition V_dynamics_methods : list (string * Z) :=
  [ ("linear_forward_euler", 0); ("linear_exact", 1) ]%Z.

Definition model_variant_code (tok : model_type) : option Z :=
  model_type_lu !! to_lower tok.

Definition V_dynamics_method_code (tok : string) : option Z :=
  (list_to_map V_dynamics_methods : gmap string Z) !! to_lower tok.

Definition asc_lengths_agree (p : Parameters_) : Prop :=
  length (k_ p) = length (asc_init_ p) ∧
  length (asc_amps_ p) = length (asc_init_ p) ∧
  length (r_ p) = length (asc_init_ p).

#[global] Instance asc_lengths_agree_dec p : Decision (asc_lengths_agree p).
Proof. unfold asc_lengths_agree. apply _. Defined.

(** Modelled from the spec: the body of [Parameters_::set] is missing from
    the header.  Section 4.1: [validate(raw_config) -> Parameters |
    ConfigError] rejects non-positive capacitance, negative conductance or
    refractory duration, after-spike-current arrays of different lengths and
    an unknown [model_variant] or [integration_method] token (aliases are
    case-insensitive); on success the snapshot is returned.  [ConfigError] is
    the kernel's [BadProperty]. *)
Definition validate (raw : Parameters_) : KernelException + Parameters_ :=
  if decide (C_m_ raw <= 0)%R then
    inl (BadProperty "Capacitance must be strictly positive.")
  else if decide (G_ raw < 0)%R then
    inl (BadProperty "Membrane conductance must not be negative.")
  else if decide (t_ref_ raw < 0)%R then
    inl (BadProperty "Refractory time must not be negative.")
  else if decide (asc_lengths_agree raw) then
    match model_variant_code (glif_model_ raw) with
    | None => inl (BadProperty "Unknown model variant.")
    | Some _ =>
      match V_dynamics_method_code (V_dynamics_method_ raw) with
      | None => inl (BadProperty "Unknown voltage dynamics method.")
      | Some _ => inr raw
      end
    end
  else
    inl (BadProperty "All after-spike-current arrays must have the same size.").

(** ** The step integrator *)

(** A division whose result is NaN or Inf when the divisor is zero. *)
Definition checked_div (x y : R) : option R :=
  if decide (y = 0)%R then None else Some (x / y)%R.

(** The variant feature matrix (section 4.2), by numeric variant code. *)
Definition has_biophysical_reset (variant : Z) : bool :=
  bool_decide (variant = 2 ∨ variant = 4 ∨ variant = 5)%Z.
Definition has_after_spike_currents (variant : Z) : bool :=
  bool_decide (variant = 3 ∨ variant = 4 ∨ variant = 5)%Z.
Definition has_adaptive_threshold (variant : Z) : bool :=
  bool_decide (variant = 5)%Z.

Inductive SolverMode := ForwardEuler | Exact.

(** [Variables_::method_]: 0 linear forward Euler, 1 linear exact. *)
Definition solver_mode (method : Z) : SolverMode :=
  if decide (method = 0)%Z then ForwardEuler else Exact.

Inductive Phase := Integrating | Refractory.

(** The neuron is refractory while the countdown is positive. *)
Definition phase (V : Variables_) : Phase :=
  if decide (0 < t_ref_remaining_ V)%R then Refractory else Integrating.

(** What the input aggregator supplies for one step. *)
Record StepInput := mkStepInput {
  in_current : R;
  in_spikes : R
}.

(** Modelled from the spec: the body of [update] is missing from the header.
    Section 4.2, step 3: one step of the membrane equation
    [C_m dV/dt = -G (V - E_L) + I + ASC_sum] over [h], by forward Euler or by
    the closed form, the zero-conductance case of the closed form being the
    linear one. *)
Definition voltage_step (mode : SolverMode) (P : Parameters_) (h I : R) (S : State_)
    : option R :=
  let v := V_m_ S in
  let drive := (I + ASCurrents_sum_ S)%R in
  match mode with
  | ForwardEuler =>
    q ← checked_div h (C_m_ P);
    Some (v + q * (- G_ P * (v - E_L_ P) + drive))%R
  | Exact =>
    if decide (G_ P = 0)%R then
      q ← checked_div h (C_m_ P);
      Some (v + q * drive)%R
    else
      v_inf ← checked_div drive (G_ P);
      x ← checked_div (G_ P * h) (C_m_ P);
      Some (E_L_ P + v_inf + (v - E_L_ P - v_inf) * exp (- x))%R
  end.

(** Modelled from the spec: section 4.2, step 4: every channel decays by
    [exp(-k_j dt)]. *)
Definition decay_currents (P : Parameters_) (dt : R) (asc : list R) : list R :=
  zip_with (λ a k, a * exp (- k * dt))%R asc (k_ P).

Definition sum_currents (asc : list R) : R := foldr Rplus 0%R asc.

(** Modelled from the spec: section 4.2, step 6: at a spike every channel
    becomes [ASC_j r_j + amplitude_j]. *)
Definition reset_currents (P : Parameters_) (asc : list R) : list R :=
  zip_with (λ a ra, a * ra.1 + ra.2)%R asc (zip (r_ P) (asc_amps_ P)).

(** Modelled from the spec: section 4.2, step 5: the voltage-dependent
    threshold component follows [dc/dt = a_voltage (V - E_L) - b_voltage c],
    solved by the method chosen for the voltage: a forward Euler step, or
    the closed form for a constant voltage, which relaxes towards
    [a_voltage (V - E_L) / b_voltage]. *)
Definition threshold_voltage_step (mode : SolverMode) (P : Parameters_) (dt v c : R)
    : option R :=
  let forcing := (a_voltage_ P * (v - E_L_ P))%R in
  match mode with
  | ForwardEuler => Some (c + dt * (forcing - b_voltage_ P * c))%R
  | Exact =>
    c_inf ← checked_div forcing (b_voltage_ P);
    Some (c_inf + (c - c_inf) * exp (- b_voltage_ P * dt))%R
  end.

Section StepIntegrator.

(** The rounding rule that turns [refractory_duration / dt] into a number
    of steps. *)
Variable rounding : R → nat.

(** The policy for the step in which the refractory countdown ends:
    [Some f] integrates the leftover fraction [f] of the step at once,
    [None] resumes integration at the next whole step. *)
Variable spill_over : option R.

(** Modelled from the spec: section 3, [refractory_steps_total] is derived
    from [refractory_duration / dt]. *)
Definition refractory_steps_total (P : Parameters_) (dt : R) : option nat :=
  q ← checked_div (t_ref_ P) dt; Some (rounding q).

(** Modelled from the spec: the body of [calibrate] is missing from the
    header.  Section 3: the derived variables [refractory_steps_total] and
    [solver_mode] are recomputed from the parameters; the header: parameters
    and state are left untouched. *)
Definition calibrate (P : Parameters_) (dt : R) (V : Variables_) : option Variables_ :=
  total ← refractory_steps_total P dt;
  method ← V_dynamics_method_code (V_dynamics_method_ P);
  Some (mkVariables (t_ref_remaining_ V) (INR total)
                    (last_spike_ V) (last_voltage_ V) method).

(** Modelled from the spec: the bodies of [update_glif1] .. [update_glif5]
    are missing from the header.  Section 4.2, steps 1 to 6, for the
    variant with the given code; the result is the new variables and
    state and whether a spike was emitted, or [None] if a NaN or Inf would
    be written.  The countdown fields of [Variables_] hold numbers of
    steps, as section 3 has them ([refractory_steps_remaining],
    [refractory_steps_total]); the header gives seconds as their unit. *)
Definition update_glif (variant : Z) (P : Parameters_) (dt : R) (inp : StepInput)
    (st : Variables_ * State_) : option (Variables_ * State_ * bool) :=
  let '(V, St) := st in
  let mode := solver_mode (method_ V) in
  (* 1. refractory countdown *)
  let remaining :=
    match phase V with
    | Refractory => (t_ref_remaining_ V - 1)%R
    | Integrating => t_ref_remaining_ V
    end in
  let active : option R :=
    match phase V with
    | Refractory =>
      if decide (remaining <= 0)%R then (λ f, f * dt)%R <$> spill_over else None
    | Integrating => Some dt
    end in
  (* 2. external input *)
  let I := (in_current inp + in_spikes inp)%R in
  (* 3. membrane voltage *)
  v ← match active with
      | Some h => voltage_step mode P h I St
      | None => Some (V_m_ St)
      end;
  (* 4. after-spike currents *)
  let asc :=
    if has_after_spike_currents variant
    then decay_currents P dt (ASCurrents_ St) else ASCurrents_ St in
  let asc_sum :=
    if has_after_spike_currents variant
    then sum_currents asc else ASCurrents_sum_ St in
  (* 5. threshold *)
  '(ls, lv, th) ←
    (if has_adaptive_threshold variant then
       lv ← threshold_voltage_step mode P dt v (last_voltage_ V);
       let ls := (last_spike_ V * exp (- b_spike_ P * dt))%R in
       Some (ls, lv, (th_inf_ P + ls + lv)%R)
     else Some (last_spike_ V, last_voltage_ V, threshold_ St));
  (* 6. spike test *)
  if bool_decide (is_Some active ∧ (th <= v)%R) then
    let v_reset :=
      if has_biophysical_reset variant
      then (voltage_reset_a_ P * th + voltage_reset_b_ P)%R else V_reset_ P in
    let ls' := (ls + a_spike_ P)%R in
    let asc' :=
      if has_after_spike_currents variant then reset_currents P asc else asc in
    let asc_sum' :=
      if has_after_spike_currents variant then sum_currents asc' else asc_sum in
    Some (mkVariables (t_ref_total_ V) (t_ref_total_ V) ls' lv (method_ V),
          mkState v_reset asc' asc_sum' (th_inf_ P + ls' + lv)%R (in_current inp),
          true)
  else
    Some (mkVariables remaining (t_ref_total_ V) ls lv (method_ V),
          mkState v asc asc_sum th (in_current inp),
          false).

Definition update_glif1 := update_glif 1.
Definition update_glif2 := update_glif 2.
Definition update_glif3 := update_glif 3.
Definition update_glif4 := update_glif 4.
Definition update_glif5 := update_glif 5.

(** [update] dispatches on the configured variant. *)
Definition update (P : Parameters_) (dt : R) (inp : StepInput)
    (st : Variables_ * State_) : option (Variables_ * State_ * bool) :=
  variant ← model_variant_code (glif_model_ P);
  update_glif variant P dt inp st.

(** A run of consecutive steps, one per input: the final variables and
    state and the spike decision of every step. *)
Fixpoint run (variant : Z) (P : Parameters_) (dt : R) (inputs : list StepInput)
    (st : Variables_ * State_) : option (Variables_ * State_ * list bool) :=
  match inputs with
  | [] => Some (st, [])
  | inp :: inputs' =>
    '(V', S', spike) ← update_glif variant P dt inp st;
    '(V'', S'', spikes) ← run variant P dt inputs' (V', S');
    Some (V'', S'', spike :: spikes)
  end.

End StepIntegrator.

Arguments update_glif : simpl never.

(** ** A model of the setters *)

#[global] Instance exc_ret : MRet (sum KernelException) := λ A (a : A), inr a.
#[global] Instance exc_bind : MBind (sum KernelException) :=
  λ A B (f : A → KernelException + B) (m : KernelException + A),
    match m with
    | inl e => inl e
    | inr a => f a
    end.

(** Reading one entry of the dictionary into a variable: an absent key
    leaves the variable as it is, an entry of another type is rejected. *)
Definition updateValue_double (d : DictionaryDatum) (key : string) (x : R)
    : KernelException + R :=
  match d !! key with
  | None => inr x
  | Some (DoubleDatum v) => inr v
  | Some _ => inl (BadProperty key)
  end.

Definition updateValue_vector (d : DictionaryDatum) (key : string) (x : list R)
    : KernelException + list R :=
  match d !! key with
  | None => inr x
  | Some (DoubleVectorDatum v) => inr v
  | Some _ => inl (BadProperty key)
  end.

Definition updateValue_string (d : DictionaryDatum) (key : string) (x : string)
    : KernelException + string :=
  match d !! key with
  | None => inr x
  | Some (StringDatum v) => inr v
  | Some _ => inl (BadProperty key)
  end.

(** Modelled from the spec: the body of [Parameters_::set] is missing from
    the header.  Section 4.3: the requested changes are applied to the clone
    and the clone is validated; section 6: the dictionary is a flat mapping
    of named values and unknown keys are ignored.  The keys are those the
    header documents as settable. *)
Definition Parameters_set_model (d : DictionaryDatum) (p : Parameters_)
    : KernelException + Parameters_ :=
  g ← updateValue_double d "g" (G_ p);
  E_L ← updateValue_double d "E_L" (E_L_ p);
  C_m ← updateValue_double d "C_m" (C_m_ p);
  t_ref ← updateValue_double d "t_ref" (t_ref_ p);
  a_spike ← updateValue_double d "a_spike" (a_spike_ p);
  b_spike ← updateValue_double d "b_spike" (b_spike_ p);
  a_reset ← updateValue_double d "a_reset" (voltage_reset_a_ p);
  b_reset ← updateValue_double d "b_reset" (voltage_reset_b_ p);
  asc_init ← updateValue_vector d "asc_init" (asc_init_ p);
  k ← updateValue_vector d "k" (k_ p);
  asc_amps ← updateValue_vector d "asc_amps" (asc_amps_ p);
  r ← updateValue_vector d "r" (r_ p);
  a_voltage ← updateValue_double d "a_voltage" (a_voltage_ p);
  b_voltage ← updateValue_double d "b_voltage" (b_voltage_ p);
  method ← updateValue_string d "V_dynamics_method" (V_dynamics_method_ p);
  validate (mkParameters (V_reset_ p) (th_inf_ p) g E_L C_m t_ref a_spike b_spike
                         a_reset b_reset a_voltage b_voltage asc_init k asc_amps r
                         method (glif_model_ p)).

(** Modelled from the spec: the body of [State_::set] is missing from the
    header.  Section 3: the state holds one after-spike current per
    configured channel and is initialised from the parameters at
    configuration; [V_m] and [V_th] are the state entries the header
    documents as settable. *)
Definition State_set_model (d : DictionaryDatum) (p : Parameters_) (s : State_)
    : KernelException + State_ :=
  V_m ← updateValue_double d "V_m" (V_m_ s);
  V_th ← updateValue_double d "V_th" (threshold_ s);
  inr (mkState V_m (asc_init_ p) (sum_currents (asc_init_ p)) V_th (I_ s)).

(** The state holds one current per configured channel and their sum. *)
Definition state_matches_parameters (p : Parameters_) (s : State_) : Prop :=
  length (ASCurrents_ s) = length (asc_init_ p) ∧
  ASCurrents_sum_ s = sum_currents (ASCurrents_ s).

(** A base class that accepts every dictionary and a data logger that accepts
    every device, handing out consecutive ports. *)
Definition Archiving_Node_set_status_model (d : DictionaryDatum) (a : Archiving_Node)
    : (KernelException + unit) * Archiving_Node := (inr tt, a).

Definition connect_logging_device_model (dlr : DataLoggingRequest)
    (l : UniversalDataLogger) : (KernelException + port) * UniversalDataLogger :=
  (inr (Z.of_nat (length l) + 1)%Z, l ++ [dlr]).

(** ** Notions used in the statements *)

(** The five variants, by code, with their textual names. *)
Definition variant_names : list (Z * string) :=
  [ (1, "lif"); (2, "lif_r"); (3, "lif_asc"); (4, "lif_r_asc"); (5, "lif_r_asc_a") ]%Z.

(** The tokens that denote a variant: its name, the name with the [glif_]
    prefix and its code written as a decimal number. *)
Definition variant_tokens (v : Z * string) : list string :=
  [ v.2; "glif_" +:+ v.2; pretty v.1 ].

(** A call raised [UnknownReceptorType]. *)
Definition raises_UnknownReceptorType {A} (r : KernelException + A) : Prop :=
  ∃ rt name, r = inl (UnknownReceptorType rt name).

(** The threshold update of a step is defined: the closed form of the
    adaptive threshold does not divide by a zero [b_voltage]. *)
Definition threshold_step_defined (variant : Z) (P : Parameters_) (V : Variables_) : Prop :=
  has_adaptive_threshold variant = true →
  solver_mode (method_ V) = Exact → b_voltage_ P ≠ 0%R.

(** The configurations that section 4.1 rejects. *)
Definition invalid_configuration (raw : Parameters_) : Prop :=
  (C_m_ raw <= 0)%R ∨ (G_ raw < 0)%R ∨ (t_ref_ raw < 0)%R ∨
  ¬ asc_lengths_agree raw ∨
  model_variant_code (glif_model_ raw) = None ∨
  V_dynamics_method_code (V_dynamics_method_ raw) = None.

(** ** Sample configurations *)

(** The configuration of the spec's exact-method example: [C_m = 100],
    [G = 5], [E_L = -70], two after-spike-current channels. *)
Definition sample_parameters : Parameters_ :=
  mkParameters (-70) (-50) 5 (-70) 100 2 0 0 0 0 0 0
               [0; 0]%R [0.003; 0.1]%R [1; 2]%R [1; 1]%R
               "linear_exact" "lif_r_asc_a".

Definition sample_state : State_ := mkState (-70) [1; 2]%R 3 (-50) 50.

Definition sample_variables : Variables_ := mkVariables 0 2 0 0 1.

Definition sample_node : glif :=
  mkGlif [] sample_parameters sample_state sample_variables (mkBuffers [] [] []).

(** A node configured without after-spike-current channels. *)
Definition channelless_node : glif :=
  mkGlif [] sample_parameters (mkState (-70) [] 0 (-50) 0) sample_variables
         (mkBuffers [] [] []).

(** A request for a negative capacitance. *)
Definition negative_capacitance : DictionaryDatum := {[ "C_m" := DoubleDatum (-1) ]}.

(** A request for three after-spike-current channels. *)
Definition three_channels : DictionaryDatum :=
  <[ "asc_init" := DoubleVectorDatum [0; 0; 0]%R ]>
  (<[ "k" := DoubleVectorDatum [1; 1; 1]%R ]>
  (<[ "asc_amps" := DoubleVectorDatum [1; 1; 1]%R ]>
  {[ "r" := DoubleVectorDatum [1; 1; 1]%R ]})).

(** The sample configuration without a leak: [G = 0]. *)
Definition leak_free_parameters : Parameters_ :=
  mkParameters (-70) (-50) 0 (-70) 100 2 0 0 0 0 0 0
               [0; 0]%R [0.003; 0.1]%R [1; 2]%R [1; 1]%R
               "linear_exact" "lif_r_asc_a".

(** A rounding rule: the number of whole steps in the refractory time. *)
Definition round_down (x : R) : nat := Z.to_nat (Int_part x).

(** A LIF configuration solved by forward Euler, with the given refractory
    time. *)
Definition euler_parameters (t_ref : R) : Parameters_ :=
  mkParameters (-70) (-50) 5 (-70) 100 t_ref 0 0 0 0 0 0
               [0; 0]%R [0.003; 0.1]%R [1; 2]%R [1; 1]%R
               "linear_forward_euler" "lif".

(** An integrating LIF neuron, forward Euler, above its threshold,
    calibrated for a refractory period of [total] steps. *)
Definition firing_variables (total : nat) : Variables_ :=
  mkVariables 0 (INR total) 0 0 0.
Definition firing_state : State_ := mkState (-40) [1; 2]%R 3 (-50) 0.

(** The same neuron after the step in which it fires. *)
Definition fired_variables (total : nat) : Variables_ :=
  mkVariables (INR total) (INR total) (0 + 0) 0 0.
Definition fired_state : State_ := mkState (-70) [1; 2]%R 3 (-50 + (0 + 0) + 0) 0.

(** An input strong enough to bring the reset neuron back over its threshold
    in one step. *)
Definition strong_input : StepInput := mkStepInput 3000 0.

(** Every node belongs to the model named glif. *)
Definition get_name_sample (n : glif) : string := "glif".

(** A data logger that connects each device once: a second request of the
    same device is refused. *)
Definition connect_logging_device_once (dlr : DataLoggingRequest)
    (l : UniversalDataLogger) : (KernelException + port) * UniversalDataLogger :=
  if decide (dlr_sender dlr ∈ dlr_sender <$> l)
  then (inl (IllegalConnection "Each multimeter can only be connected once."), l)
  else (inr (Z.of_nat (length l) + 1)%Z, l ++ [dlr]).

(** The node operations with the models of the missing functions plugged in. *)
Definition set_status_model : DictionaryDatum → M unit :=
  set_status Parameters_set_model State_set_model Archiving_Node_set_status_model.

Definition handles_test_event_DataLoggingRequest_model
    : DataLoggingRequest → port → M port :=
  handles_test_event_DataLoggingRequest get_name_sample connect_logging_device_model.

(** A multimeter asking for the membrane potential. *)
Definition sample_request : DataLoggingRequest := mkDLR 7 ["V_m"].

(** The sample node with that multimeter already connected. *)
Definition logging_node : glif :=
  mkGlif [] sample_parameters sample_state sample_variables
         (mkBuffers [] [] [sample_request]).

(** ** Sending a connection test *)

(** [nest::synindex]. *)
Definition synindex := N.

(** A [nest::SpikeEvent] as far as the handshake uses it: the node set as its
    sender, none for a freshly constructed event. *)
Record SpikeEvent := mkSpikeEvent {
  sender_ : option glif
}.

Definition SpikeEvent_new : SpikeEvent := mkSpikeEvent None.

Definition set_sender (e : SpikeEvent) (sender : glif) : SpikeEvent :=
  mkSpikeEvent (Some sender).

(** The part of the [nest::Node] interface that [send_test_event] calls: the
    virtual [handles_test_event( SpikeEvent&, port )] of the target, acting on
    the target. *)
Class Node (T : Type) := {
  handles_test_event : SpikeEvent → port → T → (KernelException + port) * T
}.

(** A [glif] target answers with its own handler, which ignores the event. *)
Definition glif_Node (get_name : glif → string) : Node glif := {|
  handles_test_event := λ _ receptor_type,
    handles_test_event_SpikeEvent get_name receptor_type
|}.

(** [send_test_event]: the outcome, the sender and the target afterwards.  The
    sender is only read. *)
Definition send_test_event {T} `{Node T} (target : T) (receptor_type : port)
    (syn : synindex) (dummy : bool) (this : glif)
    : (KernelException + port) * glif * T :=
  let e := SpikeEvent_new in
  let e := set_sender e this in
  let '(r, target') := handles_test_event e receptor_type target in
  (r, this, target').

(** ** Reading the status *)

Section Status.

(** Functions and constants the header uses but does not define. *)
(** [Parameters_::get] and [State_::get], writing into the dictionary. *)
Variable Parameters_get : Parameters_ → DictionaryDatum → DictionaryDatum.
Variable State_get : State_ → DictionaryDatum → DictionaryDatum.
(** [Archiving_Node::get_status]. *)
Variable Archiving_Node_get_status : Archiving_Node → DictionaryDatum → DictionaryDatum.
(** The key [nest::names::recordables] and the value of
    [recordablesMap_.get_list()]. *)
Variable names_recordables : string.
Variable recordablesMap_get_list : Datum.

(** [get_status]: the dictionary after the call; the node is [const]. *)
Definition get_status (d : DictionaryDatum) (n : glif) : DictionaryDatum :=
  let d := Parameters_get (P_ n) d in
  let d := State_get (S_ n) d in
  let d := Archiving_Node_get_status (archive n) d in
  <[ names_recordables := recordablesMap_get_list ]> d.

End Status.

(** ** More sample configurations *)

(** A node with a single after-spike-current channel and its cached sum. *)
Definition single_channel_node : glif :=
  mkGlif [] sample_parameters (mkState (-70) [3]%R 3 (-50) 0) sample_variables
         (mkBuffers [] [] []).

(** A base class that rejects every dictionary and records the attempt. *)
Definition Archiving_Node_set_status_rejecting (d : DictionaryDatum) (a : Archiving_Node)
    : (KernelException + unit) * Archiving_Node :=
  (inl (BadProperty "tau_minus"), 0%R :: a).

(** Getters that report the capacitance and the membrane potential. *)
Definition Parameters_get_model (p : Parameters_) (d : DictionaryDatum) : DictionaryDatum :=
  <[ "C_m" := DoubleDatum (C_m_ p) ]> d.

Definition State_get_model (s : State_) (d : DictionaryDatum) : DictionaryDatum :=
  <[ "V_m" := DoubleDatum (V_m_ s) ]> d.

Definition Archiving_Node_get_status_model (a : Archiving_Node) (d : DictionaryDatum)
    : DictionaryDatum := d.

Definition get_status_model : DictionaryDatum → glif → DictionaryDatum :=
  get_status Parameters_get_model State_get_model Archiving_Node_get_status_model
             "recordables" (StringDatum "V_m").

(** ** Properties of the recordable accessors *)

(** C1, evaluated on a two-channel state: with channels [1; 2] and the
    cached sum 3, [get_AScurrents_sum_] returns the first channel, 1, and not
    the sum of the after-spike currents. *)
Lemma get_AScurrents_sum_returns_first_channel :
  get_AScurrents_sum_ sample_node = Some 1%R ∧
  ASCurrents_sum_ (S_ sample_node) = 3%R ∧
  sum_currents (ASCurrents_ (S_ sample_node)) = 3%R ∧
  get_AScurrents_sum_ sample_node ≠ Some (ASCurrents_sum_ (S_ sample_node)).
Proof.
  repeat split.
  - cbn. lra.
  - cbn. intros [= H]. lra.
Qed.

Example get_AScurrents_sum_channelless : get_AScurrents_sum_ channelless_node = None.
Proof. reflexivity. Qed.

(** C9: [get_AScurrents_sum_] reads element 0 of [ASCurrents_] without any
    check, so the read is defined exactly when there is at least one
    after-spike-current channel and is out of bounds when there is none. *)
Theorem get_AScurrents_sum_needs_a_channel (n : glif) :
  get_AScurrents_sum_ n = head (ASCurrents_ (S_ n)) ∧
  (is_Some (get_AScurrents_sum_ n) ↔ (1 ≤ length (ASCurrents_ (S_ n)))%nat) ∧
  (get_AScurrents_sum_ n = None ↔ length (ASCurrents_ (S_ n)) = 0%nat).
Proof.
  unfold get_AScurrents_sum_.
  destruct (ASCurrents_ (S_ n)) as [|a l]; cbn.
  - split; [done|]. split; [|done].
    split; [intros [x [=]] | lia].
  - split; [done|]. split.
    + split; [lia | eauto].
    + split; [intros [=] | lia].
Qed.

(** ** Properties of the model-variant table *)

Lemma model_type_lu_lookup (tok : string) (code : Z) :
  model_type_lu !! tok = Some code ↔ (tok, code) ∈ model_type_lu_entries.
Proof.
  unfold model_type_lu. symmetry. apply elem_of_list_to_map.
  apply (bool_decide_unpack _). vm_compute. reflexivity.
Qed.

(** C6: [model_type_lu] is a data table: a lookup succeeds exactly on the
    listed entries; for each of the five variants its name, its [glif_] name
    and its decimal code all map to the variant's code, and the table has no
    other key; in particular "lif_r_asc_a", "glif_lif_r_asc_a" and "5" map
    to 5; the codes in the table are exactly 1 to 5. *)
Theorem model_type_lu_aliases :
  (∀ (tok : string) (code : Z),
     model_type_lu !! tok = Some code ↔ (tok, code) ∈ model_type_lu_entries) ∧
  Forall (λ v, Forall (λ tok, model_type_lu !! tok = Some v.1) (variant_tokens v))
         variant_names ∧
  dom model_type_lu = list_to_set (variant_names ≫= variant_tokens) ∧
  (model_type_lu !! "lif_r_asc_a" = Some 5%Z ∧
   model_type_lu !! "glif_lif_r_asc_a" = Some 5%Z ∧
   model_type_lu !! "5" = Some 5%Z) ∧
  (∀ code : Z, (∃ tok : string, model_type_lu !! tok = Some code) ↔ (1 ≤ code ≤ 5)%Z).
Proof.
  split; [exact model_type_lu_lookup|].
  split; [repeat constructor|].
  split; [apply (bool_decide_unpack _); vm_compute; reflexivity|].
  split; [repeat split|].
  intros code. split.
  - intros [tok H]. apply model_type_lu_lookup in H.
    unfold model_type_lu_entries in H.
    repeat (apply elem_of_cons in H as [[= _ ->]|H]; [lia|]).
    by apply elem_of_nil in H.
  - intros H.
    assert (code = 1 ∨ code = 2 ∨ code = 3 ∨ code = 4 ∨ code = 5)%Z
      as [->|[->|[->|[->| ->]]]] by lia.
    + by exists "lif".
    + by exists "lif_r".
    + by exists "lif_asc".
    + by exists "lif_r_asc".
    + by exists "lif_r_asc_a".
Qed.

(** ** Properties of the connection handshake and of [set_status] *)

Section NodeProperties.

Variable get_name : glif → string.
Variable Parameters_set : DictionaryDatum → Parameters_ → KernelException + Parameters_.
Variable State_set : DictionaryDatum → Parameters_ → State_ → KernelException + State_.
Variable Archiving_Node_set_status :
  DictionaryDatum → Archiving_Node → (KernelException + unit) * Archiving_Node.
Variable connect_logging_device :
  DataLoggingRequest → UniversalDataLogger → (KernelException + port) * UniversalDataLogger.

Local Abbreviation set_status' :=
  (set_status Parameters_set State_set Archiving_Node_set_status).
Local Abbreviation handles_test_event_SpikeEvent' :=
  (handles_test_event_SpikeEvent get_name).
Local Abbreviation handles_test_event_CurrentEvent' :=
  (handles_test_event_CurrentEvent get_name).
Local Abbreviation handles_test_event_DataLoggingRequest' :=
  (handles_test_event_DataLoggingRequest get_name connect_logging_device).

(** [set_status], call by call. *)
Lemma set_status_unfold (d : DictionaryDatum) (n : glif) :
  set_status' d n =
  match Parameters_set d (P_ n) with
  | inl e => (inl e, n)
  | inr ptmp =>
    match State_set d ptmp (S_ n) with
    | inl e => (inl e, n)
    | inr stmp =>
      match Archiving_Node_set_status d (archive n) with
      | (inl e, a) => (inl e, mkGlif a (P_ n) (S_ n) (V_ n) (B_ n))
      | (inr _, a) => (inr tt, mkGlif a ptmp stmp (V_ n) (B_ n))
      end
    end
  end.
Proof.
  unfold set_status, mbind, M_bind, gets, lift, on_archive, modify. cbn.
  destruct (Parameters_set d (P_ n)) as [e|ptmp]; [done|].
  destruct (State_set d ptmp (S_ n)) as [e|stmp]; [done|]. cbn.
  destruct (Archiving_Node_set_status d (archive n)) as [[e|[]] a]; done.
Qed.

(** Whatever makes [set_status] fail, the parameters and the state stay. *)
Lemma set_status_failure_keeps_P_S (d : DictionaryDatum) (n : glif) (e : KernelException) :
  outcome (set_status' d) n = inl e →
  P_ (node_after (set_status' d) n) = P_ n ∧
  S_ (node_after (set_status' d) n) = S_ n.
Proof.
  unfold outcome, node_after. rewrite set_status_unfold.
  destruct (Parameters_set d (P_ n)) as [e1|ptmp]; [done|].
  destruct (State_set d ptmp (S_ n)) as [e2|stmp]; [done|].
  destruct (Archiving_Node_set_status d (archive n)) as [[e3|u] a]; done.
Qed.

(** C2: if [Parameters_::set] or [State_::set] throws during [set_status],
    then [set_status] throws that exception and leaves the node, and so its
    [P_] and [S_], exactly as they were. *)
Theorem set_status_atomic (d : DictionaryDatum) (n : glif) (e : KernelException) :
  Parameters_set d (P_ n) = inl e ∨
  (∃ ptmp, Parameters_set d (P_ n) = inr ptmp ∧ State_set d ptmp (S_ n) = inl e) →
  outcome (set_status' d) n = inl e ∧
  node_after (set_status' d) n = n ∧
  P_ (node_after (set_status' d) n) = P_ n ∧
  S_ (node_after (set_status' d) n) = S_ n.
Proof.
  intros H. unfold outcome, node_after. rewrite set_status_unfold.
  destruct H as [-> | (ptmp & -> & ->)]; done.
Qed.

(** C10: a successful [set_status] commits the parameters produced by
    [Parameters_::set] together with the state that [State_::set] produced
    for those new parameters; so any relation that [State_::set]
    establishes between the parameters it is given and the state it
    returns holds between the committed [P_] and [S_]. *)
Theorem set_status_commits_consistent
    (consistent : Parameters_ → State_ → Prop) (d : DictionaryDatum) (n : glif) :
  (∀ d p s s', State_set d p s = inr s' → consistent p s') →
  outcome (set_status' d) n = inr tt →
  (∃ ptmp stmp,
     Parameters_set d (P_ n) = inr ptmp ∧
     State_set d ptmp (S_ n) = inr stmp ∧
     P_ (node_after (set_status' d) n) = ptmp ∧
     S_ (node_after (set_status' d) n) = stmp) ∧
  consistent (P_ (node_after (set_status' d) n)) (S_ (node_after (set_status' d) n)).
Proof.
  intros Hset. unfold outcome, node_after. rewrite set_status_unfold.
  destruct (Parameters_set d (P_ n)) as [e1|ptmp] eqn:HP; [done|].
  destruct (State_set d ptmp (S_ n)) as [e2|stmp] eqn:HS; [done|].
  destruct (Archiving_Node_set_status d (archive n)) as [[e3|u] a]; [done|].
  intros _. cbn. split; [by exists ptmp, stmp | by eapply Hset].
Qed.

(** C5, as the header has it: the spike and the current test raise
    [UnknownReceptorType] exactly when the receptor is not 0; with a receptor
    other than 0 each of the three tests throws [UnknownReceptorType] for
    that receptor and this node's name and leaves the node as it was.  On
    receptor 0 the spike and the current test return port 0 without touching
    the node; the data-logging test hands the request to the logger: its
    outcome, a port or the logger's exception, is that of
    [connect_logging_device], and nothing of the node changes but the
    logger. *)
Theorem handles_test_event_receptor
    (n : glif) (dlr : DataLoggingRequest) (receptor_type : port) :
  (raises_UnknownReceptorType (outcome (handles_test_event_SpikeEvent' receptor_type) n)
     ↔ receptor_type ≠ 0%Z) ∧
  (raises_UnknownReceptorType (outcome (handles_test_event_CurrentEvent' receptor_type) n)
     ↔ receptor_type ≠ 0%Z) ∧
  (receptor_type ≠ 0%Z →
     let thrown := (inl (UnknownReceptorType receptor_type (get_name n)), n) in
     handles_test_event_SpikeEvent' receptor_type n = thrown ∧
     handles_test_event_CurrentEvent' receptor_type n = thrown ∧
     handles_test_event_DataLoggingRequest' dlr receptor_type n = thrown) ∧
  (receptor_type = 0%Z →
     handles_test_event_SpikeEvent' receptor_type n = (inr 0%Z, n) ∧
     handles_test_event_CurrentEvent' receptor_type n = (inr 0%Z, n) ∧
     outcome (handles_test_event_DataLoggingRequest' dlr receptor_type) n
       = (connect_logging_device dlr (logger_ (B_ n))).1 ∧
     let n' := node_after (handles_test_event_DataLoggingRequest' dlr receptor_type) n in
     P_ n' = P_ n ∧ S_ n' = S_ n ∧ V_ n' = V_ n ∧ archive n' = archive n ∧
     spikes_ (B_ n') = spikes_ (B_ n) ∧ currents_ (B_ n') = currents_ (B_ n) ∧
     logger_ (B_ n') = (connect_logging_device dlr (logger_ (B_ n))).2).
Proof.
  unfold handles_test_event_SpikeEvent, handles_test_event_CurrentEvent,
    handles_test_event_DataLoggingRequest, outcome, node_after.
  destruct (decide (receptor_type ≠ 0%Z)) as [Hne|Heq].
  - unfold mbind, M_bind, gets, throw; cbn.
    repeat split; try done; try (intros _; by eexists _, _).
  - apply dec_stable in Heq. subst receptor_type.
    unfold mret, M_ret, on_logger; cbn.
    destruct (connect_logging_device dlr (logger_ (B_ n))) as [r l] eqn:Hc; cbn in *.
    repeat split; try done; try (by intros (rt & name & [=])).
Qed.

End NodeProperties.

(** The model of [State_::set] returns a state that matches the parameters it
    was given. *)
Lemma State_set_model_matches (d : DictionaryDatum) (p : Parameters_) (s s' : State_) :
  State_set_model d p s = inr s' → state_matches_parameters p s'.
Proof.
  unfold State_set_model, updateValue_double, mbind, exc_bind.
  destruct (d !! "V_m") as [[]|]; try done;
    destruct (d !! "V_th") as [[]|]; try done;
    intros [= <-]; by split.
Qed.

(** The model of [Parameters_::set] rejects a negative capacitance. *)
Lemma Parameters_set_model_negative_capacitance :
  Parameters_set_model negative_capacitance sample_parameters
  = inl (BadProperty "Capacitance must be strictly positive.").
Proof.
  unfold Parameters_set_model, updateValue_double, updateValue_vector,
    updateValue_string, negative_capacitance.
  simpl_map. cbn. unfold validate. cbn.
  case_decide as H; [done|]. exfalso. apply H. lra.
Defined.

(** The model of [Parameters_::set] accepts the three-channel request. *)
Lemma Parameters_set_model_three_channels :
  Parameters_set_model three_channels sample_parameters
  = inr (mkParameters (-70) (-50) 5 (-70) 100 2 0 0 0 0 0 0
                      [0; 0; 0]%R [1; 1; 1]%R [1; 1; 1]%R [1; 1; 1]%R
                      "linear_exact" "lif_r_asc_a").
Proof.
  unfold Parameters_set_model, updateValue_double, updateValue_vector,
    updateValue_string, three_channels.
  simpl_map. cbn. unfold validate. cbn.
  repeat (case_decide as H; [exfalso; lra|clear H]).
  case_decide as H; [done|]. exfalso. apply H. by repeat split.
Defined.

Lemma set_status_atomic_witness :
  outcome (set_status_model negative_capacitance) sample_node
    = inl (BadProperty "Capacitance must be strictly positive.") ∧
  node_after (set_status_model negative_capacitance) sample_node = sample_node ∧
  P_ (node_after (set_status_model negative_capacitance) sample_node) = P_ sample_node ∧
  S_ (node_after (set_status_model negative_capacitance) sample_node) = S_ sample_node.
Proof.
  apply (set_status_atomic Parameters_set_model State_set_model
           Archiving_Node_set_status_model negative_capacitance sample_node).
  left. exact Parameters_set_model_negative_capacitance.
Defined.

Lemma set_status_commits_consistent_witness :
  (∃ ptmp stmp,
     Parameters_set_model three_channels (P_ sample_node) = inr ptmp ∧
     State_set_model three_channels ptmp (S_ sample_node) = inr stmp ∧
     P_ (node_after (set_status_model three_channels) sample_node) = ptmp ∧
     S_ (node_after (set_status_model three_channels) sample_node) = stmp) ∧
  state_matches_parameters
    (P_ (node_after (set_status_model three_channels) sample_node))
    (S_ (node_after (set_status_model three_channels) sample_node)).
Proof.
  apply (set_status_commits_consistent Parameters_set_model State_set_model
           Archiving_Node_set_status_model state_matches_parameters
           three_channels sample_node).
  - exact State_set_model_matches.
  - unfold outcome. rewrite set_status_unfold. cbn [P_ sample_node].
    rewrite Parameters_set_model_three_channels.
    unfold State_set_model, updateValue_double, three_channels.
    simpl_map. reflexivity.
Defined.

(** With a data logger that accepts every device, the data-logging test on
    receptor 0 returns the logger's port and registers the device. *)
Example handles_test_event_DataLoggingRequest_accepted :
  handles_test_event_DataLoggingRequest_model sample_request 0%Z sample_node
  = (inr 1%Z, logging_node).
Proof. reflexivity. Qed.

(** C5, against the claim as stated: with a data logger that connects each
    device once, the data-logging test on receptor 0 of a node to which the
    device is already connected does not succeed: it throws the logger's
    [IllegalConnection]. *)
Lemma handles_test_event_DataLoggingRequest_refused :
  outcome (handles_test_event_DataLoggingRequest get_name_sample
             connect_logging_device_once sample_request 0%Z) logging_node
    = inl (IllegalConnection "Each multimeter can only be connected once.") ∧
  ¬ ∃ p : port,
      outcome (handles_test_event_DataLoggingRequest get_name_sample
                 connect_logging_device_once sample_request 0%Z) logging_node
      = inr p.
Proof.
  assert (outcome (handles_test_event_DataLoggingRequest get_name_sample
                     connect_logging_device_once sample_request 0%Z) logging_node
          = inl (IllegalConnection "Each multimeter can only be connected once."))
    as H by reflexivity.
  split; [exact H|]. rewrite H. by intros [p [=]].
Qed.

(** ** Properties of the parameter validation *)

(** [validate] either returns its argument, which is then a valid
    configuration, or rejects it with a [BadProperty]. *)
Lemma validate_cases (raw : Parameters_) :
  (validate raw = inr raw ∧ ¬ invalid_configuration raw) ∨
  ((∃ msg, validate raw = inl (BadProperty msg)) ∧ invalid_configuration raw).
Proof.
  unfold validate, invalid_configuration.
  destruct (decide (C_m_ raw <= 0)%R) as [HC|HC]; [right; eauto 8|].
  destruct (decide (G_ raw < 0)%R) as [HG|HG]; [right; eauto 8|].
  destruct (decide (t_ref_ raw < 0)%R) as [Ht|Ht]; [right; eauto 8|].
  destruct (decide (asc_lengths_agree raw)) as [Hl|Hl]; [|right; eauto 8].
  destruct (model_variant_code (glif_model_ raw)) as [v|] eqn:Hv; [|right; eauto 10].
  destruct (V_dynamics_method_code (V_dynamics_method_ raw)) as [m|] eqn:Hm;
    [|right; eauto 10].
  left. split; [done|]. intros [?|[?|[?|[?|[?|?]]]]]; done.
Qed.

(** C7: [validate] fails, with a [BadProperty] and without a snapshot,
    exactly when the capacitance is not positive, the conductance or the
    refractory time is negative, the four after-spike-current arrays differ
    in length, or the variant or the voltage-dynamics token is unknown; when
    it succeeds the snapshot is the validated configuration itself, and
    running it on a node leaves the node, and so its state, untouched. *)
Theorem validate_rejects_exactly (raw : Parameters_) :
  ((∃ msg, validate raw = inl (BadProperty msg)) ↔
     (C_m_ raw <= 0)%R ∨ (G_ raw < 0)%R ∨ (t_ref_ raw < 0)%R ∨
     ¬ asc_lengths_agree raw ∨
     model_variant_code (glif_model_ raw) = None ∨
     V_dynamics_method_code (V_dynamics_method_ raw) = None) ∧
  ((∃ e, validate raw = inl e) ↔ ¬ ∃ p, validate raw = inr p) ∧
  (∀ e, validate raw = inl e → ∃ msg, e = BadProperty msg) ∧
  (∀ p, validate raw = inr p → p = raw) ∧
  (∀ n : glif, node_after (lift (validate raw)) n = n).
Proof.
  fold (invalid_configuration raw).
  destruct (validate_cases raw) as [[Hok Hvalid]|[[msg Hbad] Hinvalid]].
  - rewrite Hok. repeat split; try done.
    + by intros [msg [=]].
    + by intros [e [=]].
    + intros H. destruct H. by exists raw.
    + by intros p [= <-].
  - rewrite Hbad. repeat split; try done.
    + by exists msg.
    + by intros _ [p [=]].
    + intros _. by eexists.
    + intros e [= <-]. by exists msg.
Qed.

(** ** Properties of the voltage update *)

Lemma checked_div_nonzero (x y : R) : y ≠ 0%R → checked_div x y = Some (x / y)%R.
Proof. intros H. unfold checked_div. by rewrite decide_False. Qed.

(** The closed form of the exact method, for a non-zero conductance. *)
Lemma voltage_step_exact_closed_form (P : Parameters_) (St : State_) (h I : R) :
  G_ P ≠ 0%R → C_m_ P ≠ 0%R →
  voltage_step Exact P h I St =
  Some (E_L_ P + (I + ASCurrents_sum_ St) / G_ P
        + (V_m_ St - E_L_ P - (I + ASCurrents_sum_ St) / G_ P)
          * exp (- G_ P * h / C_m_ P))%R.
Proof.
  intros HG HC. unfold voltage_step.
  rewrite decide_False by done.
  rewrite !checked_div_nonzero by done. cbn.
  f_equal. f_equal. f_equal. f_equal. unfold Rdiv. ring.
Qed.

(** Below the steady state, one exact step moves the voltage strictly up
    and keeps it strictly below the steady state. *)
Lemma exact_step_between (v v_inf x : R) :
  (0 < x)%R → (v < v_inf)%R →
  (v < v_inf + (v - v_inf) * exp (- x) < v_inf)%R.
Proof.
  intros Hx Hv.
  assert (0 < exp (- x))%R as Hpos by apply exp_pos.
  assert (exp (- x) < 1)%R as Hlt.
  { rewrite <- exp_0. apply exp_increasing. lra. }
  split; nra.
Qed.

(** C3: with a positive conductance, one step of the exact method (solver
    flag 1) takes the voltage to
    [E_L + (I + ASC_sum)/G + (V - E_L - (I + ASC_sum)/G) exp(-G dt/C_m)];
    with [C_m = 100], [G = 5], [E_L = -70], [I = 50], [ASC_sum = 0] and
    [dt = 0.1] it takes the voltage from -70 to a value strictly between -70
    and -60. *)
Theorem voltage_step_exact_formula (P : Parameters_) (St : State_) (dt I : R) :
  (0 < G_ P)%R → (0 < C_m_ P)%R →
  voltage_step (solver_mode 1) P dt I St =
    Some (E_L_ P + (I + ASCurrents_sum_ St) / G_ P
          + (V_m_ St - E_L_ P - (I + ASCurrents_sum_ St) / G_ P)
            * exp (- G_ P * dt / C_m_ P))%R ∧
  (C_m_ P = 100%R → G_ P = 5%R → E_L_ P = (-70)%R → I = 50%R →
   ASCurrents_sum_ St = 0%R → dt = 0.1%R → V_m_ St = (-70)%R →
   ∃ v, voltage_step (solver_mode 1) P dt I St = Some v ∧ (-70 < v < -60)%R).
Proof.
  intros HG HC.
  assert (solver_mode 1 = Exact) as -> by done.
  rewrite voltage_step_exact_closed_form by lra.
  split; [done|].
  intros -> -> -> -> -> -> ->. eexists. split; [done|].
  pose proof (exact_step_between (-70) (-60) (5 * 0.1 / 100)) as H.
  replace (- (5) * 0.1 / 100)%R with (- (5 * 0.1 / 100))%R by lra.
  lra.
Qed.

Lemma voltage_step_exact_formula_witness :
  ∃ v, voltage_step (solver_mode 1) sample_parameters 0.1 50
         (mkState (-70) [0; 0]%R 0 (-50) 50) = Some v ∧ (-70 < v < -60)%R.
Proof.
  refine (proj2 (voltage_step_exact_formula sample_parameters
                   (mkState (-70) [0; 0]%R 0 (-50) 50) 0.1 50 _ _)
                _ _ _ _ _ _ _); cbn; lra.
Defined.

(** A voltage step fails only by dividing by a zero capacitance. *)
Lemma voltage_step_total (mode : SolverMode) (P : Parameters_) (h I : R) (St : State_) :
  C_m_ P ≠ 0%R → is_Some (voltage_step mode P h I St).
Proof.
  intros HC. unfold voltage_step.
  destruct mode; [|destruct (decide (G_ P = 0)%R)];
    rewrite ?checked_div_nonzero by done; by eexists.
Qed.

(** The threshold component has no value exactly when its closed form
    divides by a zero [b_voltage]. *)
Lemma threshold_voltage_step_None (mode : SolverMode) (P : Parameters_) (dt v c : R) :
  threshold_voltage_step mode P dt v c = None ↔ mode = Exact ∧ b_voltage_ P = 0%R.
Proof.
  unfold threshold_voltage_step, checked_div.
  destruct mode; [by split; [|intros [? _]]|].
  destruct (decide (b_voltage_ P = 0)%R); cbn; split; try done.
  by intros [_ ?].
Qed.

(** With a non-zero capacitance, a step has no result exactly when the
    adaptive threshold is solved in closed form with a zero [b_voltage]. *)
Lemma update_glif_None (spill_over : option R) (variant : Z) (P : Parameters_)
    (dt : R) (inp : StepInput) (V : Variables_) (St : State_) :
  C_m_ P ≠ 0%R →
  update_glif spill_over variant P dt inp (V, St) = None ↔
  has_adaptive_threshold variant = true ∧
  solver_mode (method_ V) = Exact ∧ b_voltage_ P = 0%R.
Proof.
  intros HC. unfold update_glif.
  set (active := match phase V with Refractory => _ | Integrating => _ end).
  assert (is_Some (match active with
                   | Some h => voltage_step (solver_mode (method_ V)) P h
                                 (in_current inp + in_spikes inp) St
                   | None => Some (V_m_ St)
                   end)) as [v ->].
  { destruct active; [by apply voltage_step_total | by eexists]. }
  cbn.
  destruct (has_adaptive_threshold variant).
  - destruct (threshold_voltage_step (solver_mode (method_ V)) P dt v (last_voltage_ V))
      as [lv|] eqn:Hlv; cbn.
    + split; [by case_bool_decide|].
      intros (_ & Hm & Hb).
      assert (threshold_voltage_step (solver_mode (method_ V)) P dt v (last_voltage_ V)
              = None) as Hn by by apply threshold_voltage_step_None.
      congruence.
    + apply threshold_voltage_step_None in Hlv as [Hm Hb]. by split.
  - cbn. split; [by case_bool_decide | by intros [? _]].
Qed.

(** With a non-zero capacitance and a defined threshold update a step of any
    variant produces a result. *)
Lemma update_glif_total (spill_over : option R) (variant : Z) (P : Parameters_)
    (dt : R) (inp : StepInput) (V : Variables_) (St : State_) :
  C_m_ P ≠ 0%R → threshold_step_defined variant P V →
  ∃ V' St' spike, update_glif spill_over variant P dt inp (V, St) = Some (V', St', spike).
Proof.
  intros HC Hth.
  destruct (update_glif spill_over variant P dt inp (V, St))
    as [[[V' St'] spike]|] eqn:H; [by eexists _, _, _|].
  apply update_glif_None in H as (Ha & Hm & Hb); [|done].
  by destruct (Hth Ha Hm).
Qed.

(** What a step does to the refractory countdown. *)
Lemma update_glif_countdown (spill_over : option R) (variant : Z) (P : Parameters_)
    (dt : R) (inp : StepInput) (V V' : Variables_) (St St' : State_) (spike : bool) :
  update_glif spill_over variant P dt inp (V, St) = Some (V', St', spike) →
  t_ref_total_ V' = t_ref_total_ V ∧
  (spike = true →
     t_ref_remaining_ V' = t_ref_total_ V ∧
     (phase V = Integrating ∨
      (phase V = Refractory ∧ is_Some spill_over ∧ (t_ref_remaining_ V - 1 <= 0)%R))) ∧
  (spike = false →
     t_ref_remaining_ V' =
     match phase V with
     | Refractory => (t_ref_remaining_ V - 1)%R
     | Integrating => t_ref_remaining_ V
     end).
Proof.
  unfold update_glif.
  set (active := match phase V with Refractory => _ | Integrating => _ end).
  assert (is_Some active →
          phase V = Integrating ∨
          (phase V = Refractory ∧ is_Some spill_over ∧ (t_ref_remaining_ V - 1 <= 0)%R))
    as Hactive.
  { subst active. destruct (phase V); [by left|].
    case_decide; [|by intros [? [=]]].
    intros Hs. right. repeat split; [|done].
    destruct spill_over; [by eexists | by destruct Hs]. }
  destruct (match active with Some h => _ | None => _ end) as [v|]; [cbn|done].
  destruct (if has_adaptive_threshold variant then _ else _) as [[[ls lv] th]|];
    [cbn|done].
  case_bool_decide as Hspike; intros [= <- <- <-]; cbn.
  - split; [done|]. split; [|done]. intros _. split; [done|].
    apply Hactive. by destruct Hspike.
  - split; [done|]. split; done.
Qed.

(** A step keeps the solver flag, and with it the threshold update stays
    defined. *)
Lemma update_glif_keeps_method (spill_over : option R) (variant : Z) (P : Parameters_)
    (dt : R) (inp : StepInput) (V V' : Variables_) (St St' : State_) (spike : bool) :
  update_glif spill_over variant P dt inp (V, St) = Some (V', St', spike) →
  method_ V' = method_ V.
Proof.
  unfold update_glif.
  destruct (match match phase V with Refractory => _ | Integrating => _ end with
            | Some h => _ | None => _ end) as [v|]; [cbn|done].
  destruct (if has_adaptive_threshold variant then _ else _) as [[[ls lv] th]|];
    [cbn|done].
  case_bool_decide; by intros [= <- <- <-].
Qed.

(** The step of the configured variant is the step [update] runs. *)
Lemma update_dispatch (spill_over : option R) (P : Parameters_) (dt : R)
    (inp : StepInput) (st : Variables_ * State_) (variant : Z) :
  model_variant_code (glif_model_ P) = Some variant →
  update spill_over P dt inp st = update_glif spill_over variant P dt inp st.
Proof. intros H. unfold update. by rewrite H. Qed.

Example update_sample_is_glif5 (inp : StepInput) (st : Variables_ * State_) :
  update None sample_parameters 0.1 inp st
  = update_glif5 None sample_parameters 0.1 inp st.
Proof. by apply update_dispatch. Qed.

(** An integrating neuron that does not spike ends the step at the voltage
    that [voltage_step] computes over the whole step. *)
Lemma update_glif_integrating_voltage (spill_over : option R) (variant : Z)
    (P : Parameters_) (dt : R) (inp : StepInput)
    (V V' : Variables_) (St St' : State_) :
  phase V = Integrating →
  update_glif spill_over variant P dt inp (V, St) = Some (V', St', false) →
  voltage_step (solver_mode (method_ V)) P dt (in_current inp + in_spikes inp) St
  = Some (V_m_ St').
Proof.
  intros HI. unfold update_glif. rewrite HI.
  destruct (voltage_step _ _ _ _ _) as [v|]; [cbn|done].
  destruct (if has_adaptive_threshold variant then _ else _) as [[[ls lv] th]|];
    [cbn|done].
  case_bool_decide; [done|]. by intros [= <- <-].
Qed.




(** ** Properties of the refractory period *)

Lemma phase_Refractory (V : Variables_) :
  phase V = Refractory ↔ (0 < t_ref_remaining_ V)%R.
Proof. unfold phase. case_decide; split; done. Qed.

Lemma phase_Integrating (V : Variables_) :
  phase V = Integrating ↔ (t_ref_remaining_ V <= 0)%R.
Proof. unfold phase. case_decide; split; try done; lra. Qed.

(** Calibrated variables hold the number of refractory steps derived from
    the refractory time and the step size. *)
Lemma calibrate_total (rounding : R → nat) (P : Parameters_) (dt : R)
    (V : Variables_) (N : nat) :
  calibrate rounding P dt V = Some V →
  refractory_steps_total rounding P dt = Some N →
  t_ref_total_ V = INR N.
Proof.
  unfold calibrate. intros Hcal HN. rewrite HN in Hcal. cbn in Hcal.
  destruct (V_dynamics_method_code (V_dynamics_method_ P)) as [m|]; [cbn in Hcal|done].
  injection Hcal as Hcal. by rewrite <- Hcal.
Qed.

Section RefractoryPeriod.

Variable rounding : R → nat.
Variable spill_over : option R.
Variable variant : Z.
Variable P : Parameters_.
Variable dt : R.
Hypothesis capacitance_positive : (0 < C_m_ P)%R.

Local Abbreviation step := (update_glif spill_over variant P dt).
Local Abbreviation steps := (run spill_over variant P dt).

Lemma run_app (inputs1 inputs2 : list StepInput) (st : Variables_ * State_) :
  steps (inputs1 ++ inputs2) st =
  '(V1, St1, spikes1) ← steps inputs1 st;
  '(V2, St2, spikes2) ← steps inputs2 (V1, St1);
  Some (V2, St2, spikes1 ++ spikes2).
Proof.
  revert st. induction inputs1 as [|inp inputs1 IH]; intros st; cbn.
  - destruct st as [V St]. cbn.
    destruct (steps inputs2 (V, St)) as [[[V2 St2] spikes2]|]; done.
  - destruct (step inp st) as [[[V' St'] spike]|]; [cbn|done].
    rewrite IH.
    destruct (steps inputs1 (V', St')) as [[[V1 St1] spikes1]|]; [cbn|done].
    destruct (steps inputs2 (V1, St1)) as [[[V2 St2] spikes2]|]; done.
Qed.

(** While more steps remain on the countdown than are run, every step
    succeeds without a spike and takes one off the countdown. *)
Lemma run_refractory (inputs : list StepInput) (V : Variables_) (St : State_) (m : nat) :
  threshold_step_defined variant P V →
  t_ref_remaining_ V = INR m → (length inputs < m)%nat →
  ∃ Vk Stk,
    steps inputs (V, St) = Some (Vk, Stk, repeat false (length inputs)) ∧
    t_ref_remaining_ Vk = INR (m - length inputs) ∧
    t_ref_total_ Vk = t_ref_total_ V ∧
    method_ Vk = method_ V.
Proof.
  revert V St m.
  induction inputs as [|inp inputs IH]; intros V St m Hth Hrem Hlen; cbn.
  - exists V, St. by rewrite Nat.sub_0_r.
  - cbn in Hlen. destruct m as [|m]; [lia|].
    rewrite S_INR in Hrem.
    pose proof (pos_INR m) as Hm0.
    assert (1 <= INR m)%R as Hm1.
    { change 1%R with (INR 1). apply le_INR. lia. }
    destruct (update_glif_total spill_over variant P dt inp V St)
      as (V' & St' & spike & Hstep); [lra|done|].
    rewrite Hstep. cbn.
    destruct (update_glif_countdown _ _ _ _ _ _ _ _ _ _ Hstep) as (Htot & Hs & Hns).
    pose proof (update_glif_keeps_method _ _ _ _ _ _ _ _ _ _ Hstep) as Hmeth.
    assert (phase V = Refractory) as HR by (apply phase_Refractory; lra).
    destruct spike.
    { destruct (Hs eq_refl) as [_ [HI|(_ & _ & Hle)]]; [congruence | lra]. }
    specialize (Hns eq_refl). rewrite HR in Hns.
    destruct (IH V' St' m) as (Vk & Stk & Hrun & Hremk & Htotk & Hmk);
      [unfold threshold_step_defined; by rewrite Hmeth | rewrite Hns; lra | lia |].
    rewrite Hrun. cbn. exists Vk, Stk.
    split; [done|]. split; [done|]. split; congruence.
Qed.


End RefractoryPeriod.

(** The sample neuron, calibrated by rounding down, has as many refractory
    steps as its refractory time has whole milliseconds. *)
Lemma round_down_steps (total : nat) :
  refractory_steps_total round_down (euler_parameters (INR total)) 1 = Some total.
Proof.
  unfold refractory_steps_total. rewrite checked_div_nonzero by lra. cbn.
  unfold round_down. f_equal.
  replace (INR total / 1)%R with (INR total) by lra.
  rewrite Int_part_INR. apply Nat2Z.id.
Defined.

Lemma firing_variables_calibrated (total : nat) :
  calibrate round_down (euler_parameters (INR total)) 1 (firing_variables total)
  = Some (firing_variables total).
Proof.
  unfold calibrate. rewrite round_down_steps. reflexivity.
Defined.

(** The sample neuron fires in one step, whatever the policy and the length
    of its refractory period. *)
Lemma firing_step (spill_over : option R) (t_ref : R) (total : nat) :
  update_glif spill_over 1 (euler_parameters t_ref) 1 (mkStepInput 0 0)
    (firing_variables total, firing_state)
  = Some (fired_variables total, fired_state, true).
Proof.
  unfold update_glif, phase, voltage_step. cbn.
  rewrite (decide_False (P := (0 < 0)%R)) by lra. cbn.
  rewrite checked_div_nonzero by lra.
  change (solver_mode 0) with ForwardEuler.
  change (has_adaptive_threshold 1) with false.
  change (has_after_spike_currents 1) with false.
  change (has_biophysical_reset 1) with false. cbn.
  rewrite bool_decide_eq_true_2; [done|].
  split; [by eexists | lra].
Defined.



(** ** Further properties of the model-variant table *)

(** X6: every key of [model_type_lu] is written in lower case, so a lookup is
    case-sensitive: a token with an upper-case letter is not found. *)
Theorem model_type_lu_keys_lower_case :
  (∀ (tok : string) (code : Z), model_type_lu !! tok = Some code → to_lower tok = tok) ∧
  (∀ tok : string, to_lower tok ≠ tok → model_type_lu !! tok = None).
Proof.
  assert (∀ (tok : string) (code : Z),
            model_type_lu !! tok = Some code → to_lower tok = tok) as Hkeys.
  { intros tok code H. apply model_type_lu_lookup in H.
    unfold model_type_lu_entries in H.
    repeat (apply elem_of_cons in H as [[= -> _]|H]; [reflexivity|]).
    by apply elem_of_nil in H. }
  split; [exact Hkeys|].
  intros tok Hne. destruct (model_type_lu !! tok) as [code|] eqn:H; [|done].
  destruct Hne. by eapply Hkeys.
Qed.

(** X7: a token with the [glif_] prefix is a key exactly when the rest is the
    textual name of a variant, and it then maps to the code of that name; the
    numeric codes take no prefix. *)
Theorem model_type_lu_glif_prefix :
  (∀ (tok : string) (code : Z),
     model_type_lu !! ("glif_" +:+ tok) = Some code ↔ (code, tok) ∈ variant_names) ∧
  (∀ (tok : string) (code : Z),
     model_type_lu !! ("glif_" +:+ tok) = Some code → model_type_lu !! tok = Some code) ∧
  Forall (λ v, model_type_lu !! ("glif_" +:+ pretty v.1) = None) variant_names.
Proof.
  assert (∀ (tok : string) (code : Z),
            model_type_lu !! ("glif_" +:+ tok) = Some code ↔ (code, tok) ∈ variant_names)
    as Hprefix.
  { intros tok code. split.
    - intros H. apply model_type_lu_lookup in H.
      unfold model_type_lu_entries in H. unfold variant_names.
      repeat (apply elem_of_cons in H as [Hk|H];
              [injection Hk as Hk ->; vm_compute in Hk; simplify_eq; set_solver|]).
      by apply elem_of_nil in H.
    - unfold variant_names. intros H.
      repeat (apply elem_of_cons in H as [[= -> ->]|H]; [reflexivity|]).
      by apply elem_of_nil in H. }
  split; [exact Hprefix|]. split.
  - intros tok code H. apply Hprefix in H. unfold variant_names in H.
    repeat (apply elem_of_cons in H as [[= -> ->]|H]; [reflexivity|]).
    by apply elem_of_nil in H.
  - repeat constructor.
Qed.

(** ** Further properties of the recordable accessors *)

(** X8: when the cached sum is the sum of the channels, [get_AScurrents_sum_]
    returns that sum exactly when the channels after the first add up to
    zero; in particular it does for a single channel. *)
Theorem get_AScurrents_sum_agrees_with_cache (n : glif) (a : R) (rest : list R) :
  ASCurrents_ (S_ n) = a :: rest →
  ASCurrents_sum_ (S_ n) = sum_currents (ASCurrents_ (S_ n)) →
  (get_AScurrents_sum_ n = Some (ASCurrents_sum_ (S_ n)) ↔ sum_currents rest = 0%R) ∧
  (rest = [] → get_AScurrents_sum_ n = Some (ASCurrents_sum_ (S_ n))).
Proof.
  intros Hch Hsum. unfold get_AScurrents_sum_. rewrite Hsum, Hch.
  unfold sum_currents. cbn.
  split; [split|].
  - intros [= H]. lra.
  - intros H. f_equal. lra.
  - intros ->. cbn. f_equal. lra.
Qed.

Lemma get_AScurrents_sum_agrees_with_cache_witness :
  (get_AScurrents_sum_ single_channel_node
   = Some (ASCurrents_sum_ (S_ single_channel_node)) ↔ sum_currents [] = 0%R) ∧
  (@nil R = [] →
   get_AScurrents_sum_ single_channel_node
   = Some (ASCurrents_sum_ (S_ single_channel_node))).
Proof.
  apply (get_AScurrents_sum_agrees_with_cache single_channel_node 3 []).
  - reflexivity.
  - cbn. lra.
Defined.

(** ** Properties of [send_test_event] *)

(** X1: a connection test sent from one [glif] to another returns port 0
    when the receptor is 0 and otherwise raises [UnknownReceptorType] with
    the requested receptor and the name of the target, whatever the name of
    the sender; sender and target are left as they were, and the synapse
    index and the last argument play no part. *)
Theorem send_test_event_between_glifs
    (get_name : glif → string) (this target : glif) (receptor_type : port)
    (syn : synindex) (dummy : bool) :
  send_test_event (H := glif_Node get_name) target receptor_type syn dummy this =
  (if decide (receptor_type = 0%Z) then inr 0%Z
   else inl (UnknownReceptorType receptor_type (get_name target)),
   this, target).
Proof.
  unfold send_test_event. cbn. unfold handles_test_event_SpikeEvent.
  destruct (decide (receptor_type = 0%Z)) as [->|Hne].
  - reflexivity.
  - rewrite decide_True by done. reflexivity.
Qed.

(** With names that tell the two nodes apart, the exception of a refused
    connection names the target. *)
Example send_test_event_names_target :
  (send_test_event (H := glif_Node (λ n, glif_model_ (P_ n)))
     channelless_node 1%Z 0%N false
     (mkGlif [] (euler_parameters 2) sample_state sample_variables
             (mkBuffers [] [] []))).1.1
  = inl (UnknownReceptorType 1%Z "lif_r_asc_a").
Proof. reflexivity. Qed.

(** ** Further properties of [set_status] and of [get_status] *)

Section StatusProperties.

Variable get_name : glif → string.
Variable Parameters_set : DictionaryDatum → Parameters_ → KernelException + Parameters_.
Variable State_set : DictionaryDatum → Parameters_ → State_ → KernelException + State_.
Variable Archiving_Node_set_status :
  DictionaryDatum → Archiving_Node → (KernelException + unit) * Archiving_Node.
Variable connect_logging_device :
  DataLoggingRequest → UniversalDataLogger → (KernelException + port) * UniversalDataLogger.
Variable Parameters_get : Parameters_ → DictionaryDatum → DictionaryDatum.
Variable State_get : State_ → DictionaryDatum → DictionaryDatum.
Variable Archiving_Node_get_status : Archiving_Node → DictionaryDatum → DictionaryDatum.
Variable names_recordables : string.
Variable recordablesMap_get_list : Datum.

Local Abbreviation set_status' :=
  (set_status Parameters_set State_set Archiving_Node_set_status).
Local Abbreviation get_status' :=
  (get_status Parameters_get State_get Archiving_Node_get_status
              names_recordables recordablesMap_get_list).
Local Abbreviation handles_test_event_SpikeEvent' :=
  (handles_test_event_SpikeEvent get_name).
Local Abbreviation handles_test_event_CurrentEvent' :=
  (handles_test_event_CurrentEvent get_name).
Local Abbreviation handles_test_event_DataLoggingRequest' :=
  (handles_test_event_DataLoggingRequest get_name connect_logging_device).

(** X3: [set_status] replaces [P_] and [S_] together or not at all.  Either
    it throws and both are as before, or it succeeds, in which case both
    setters and the base class accepted the dictionary, [P_] and [S_] are the
    temporaries the setters produced and the base class holds its update. *)
Theorem set_status_all_or_nothing (d : DictionaryDatum) (n : glif) :
  (∃ e, outcome (set_status' d) n = inl e ∧
        P_ (node_after (set_status' d) n) = P_ n ∧
        S_ (node_after (set_status' d) n) = S_ n) ∨
  (outcome (set_status' d) n = inr tt ∧
   ∃ ptmp stmp,
     Parameters_set d (P_ n) = inr ptmp ∧
     State_set d ptmp (S_ n) = inr stmp ∧
     (Archiving_Node_set_status d (archive n)).1 = inr tt ∧
     P_ (node_after (set_status' d) n) = ptmp ∧
     S_ (node_after (set_status' d) n) = stmp ∧
     archive (node_after (set_status' d) n) = (Archiving_Node_set_status d (archive n)).2).
Proof.
  unfold outcome, node_after. rewrite set_status_unfold.
  destruct (Parameters_set d (P_ n)) as [e1|ptmp]; [left; by exists e1|].
  destruct (State_set d ptmp (S_ n)) as [e2|stmp] eqn:HS; [left; by exists e2|].
  destruct (Archiving_Node_set_status d (archive n)) as [[e3|[]] a];
    [left; by exists e3|].
  right. split; [done|]. exists ptmp, stmp. by repeat split.
Qed.

(** X4: whatever the dictionary and whatever the outcome, [set_status] leaves
    the internal variables [V_] and the buffers [B_] as they were: a changed
    refractory time or solver method reaches them only through a later
    [calibrate]. *)
Theorem set_status_keeps_variables_and_buffers (d : DictionaryDatum) (n : glif) :
  V_ (node_after (set_status' d) n) = V_ n ∧
  B_ (node_after (set_status' d) n) = B_ n.
Proof.
  unfold node_after. rewrite set_status_unfold.
  destruct (Parameters_set d (P_ n)) as [e1|ptmp]; [done|].
  destruct (State_set d ptmp (S_ n)) as [e2|stmp]; [done|].
  destruct (Archiving_Node_set_status d (archive n)) as [[e3|u] a]; done.
Qed.

(** X5: when both setters accept the dictionary but the base class throws,
    [set_status] throws that exception and commits neither temporary: [P_]
    and [S_] are as before, while the base class part is as its own
    [set_status] left it. *)
Theorem set_status_base_class_rejection
    (d : DictionaryDatum) (n : glif) (ptmp : Parameters_) (stmp : State_)
    (e : KernelException) :
  Parameters_set d (P_ n) = inr ptmp →
  State_set d ptmp (S_ n) = inr stmp →
  (Archiving_Node_set_status d (archive n)).1 = inl e →
  outcome (set_status' d) n = inl e ∧
  P_ (node_after (set_status' d) n) = P_ n ∧
  S_ (node_after (set_status' d) n) = S_ n ∧
  archive (node_after (set_status' d) n) = (Archiving_Node_set_status d (archive n)).2.
Proof.
  intros HP HS HA. unfold outcome, node_after. rewrite set_status_unfold, HP, HS.
  destruct (Archiving_Node_set_status d (archive n)) as [[e3|u] a]; cbn in *; [|done].
  by simplify_eq.
Qed.

(** X2: the dictionary that [get_status] returns always holds the list of
    recordables under the recordables key, replacing whatever the getters or
    the base class stored there; every other key is as they left it; and the
    result depends on the node through [P_], [S_] and the base class part
    only. *)
Theorem get_status_recordables (d : DictionaryDatum) (n : glif) :
  get_status' d n !! names_recordables = Some recordablesMap_get_list ∧
  (∀ key, key ≠ names_recordables →
     get_status' d n !! key
     = Archiving_Node_get_status (archive n)
         (State_get (S_ n) (Parameters_get (P_ n) d)) !! key) ∧
  (∀ n', P_ n' = P_ n → S_ n' = S_ n → archive n' = archive n →
     get_status' d n' = get_status' d n).
Proof.
  unfold get_status. split; [by rewrite lookup_insert_eq|]. split.
  - intros key Hne. by rewrite lookup_insert_ne.
  - by intros n' -> -> ->.
Qed.

(** X9: a connection test of any of the three kinds, with any receptor,
    changes nothing a client can read: the recordable accessors and the
    status dictionary are the same after it as before, also when the data
    logger registered a device. *)
Theorem connection_tests_keep_observations
    (d : DictionaryDatum) (n : glif) (dlr : DataLoggingRequest) (receptor_type : port) :
  let same_observations n' :=
    get_V_m_ n' = get_V_m_ n ∧
    get_AScurrents_sum_ n' = get_AScurrents_sum_ n ∧
    get_status' d n' = get_status' d n in
  same_observations (node_after (handles_test_event_SpikeEvent' receptor_type) n) ∧
  same_observations (node_after (handles_test_event_CurrentEvent' receptor_type) n) ∧
  same_observations
    (node_after (handles_test_event_DataLoggingRequest' dlr receptor_type) n).
Proof.
  unfold handles_test_event_SpikeEvent, handles_test_event_CurrentEvent,
    handles_test_event_DataLoggingRequest, node_after.
  destruct (decide (receptor_type ≠ 0%Z)); cbn; [done|].
  split; [done|]. split; [done|].
  unfold on_logger.
  by destruct (connect_logging_device dlr (logger_ (B_ n))) as [r l].
Qed.

(** X10: after a [set_status] that throws, for whatever reason, the
    recordable accessors read what they read before; the status dictionary
    is the same too, provided the base class left its own part unchanged. *)
Theorem failed_set_status_keeps_observations
    (d d0 : DictionaryDatum) (n : glif) (e : KernelException) :
  outcome (set_status' d) n = inl e →
  get_V_m_ (node_after (set_status' d) n) = get_V_m_ n ∧
  get_AScurrents_sum_ (node_after (set_status' d) n) = get_AScurrents_sum_ n ∧
  (archive (node_after (set_status' d) n) = archive n →
   get_status' d0 (node_after (set_status' d) n) = get_status' d0 n).
Proof.
  intros H.
  destruct (set_status_failure_keeps_P_S _ _ _ d n e H) as [HP HS].
  unfold get_V_m_, get_AScurrents_sum_, get_status. rewrite HP, HS.
  split; [done|]. split; [done|]. by intros ->.
Qed.

End StatusProperties.

Lemma set_status_base_class_rejection_witness :
  outcome (set_status Parameters_set_model State_set_model
             Archiving_Node_set_status_rejecting three_channels) sample_node
    = inl (BadProperty "tau_minus") ∧
  P_ (node_after (set_status Parameters_set_model State_set_model
                    Archiving_Node_set_status_rejecting three_channels) sample_node)
    = P_ sample_node ∧
  S_ (node_after (set_status Parameters_set_model State_set_model
                    Archiving_Node_set_status_rejecting three_channels) sample_node)
    = S_ sample_node ∧
  archive (node_after (set_status Parameters_set_model State_set_model
                         Archiving_Node_set_status_rejecting three_channels) sample_node)
    = [0%R].
Proof.
  eapply (set_status_base_class_rejection Parameters_set_model State_set_model
            Archiving_Node_set_status_rejecting three_channels sample_node).
  - exact Parameters_set_model_three_channels.
  - unfold State_set_model, updateValue_double, three_channels.
    simpl_map. reflexivity.
  - reflexivity.
Defined.

Lemma failed_set_status_keeps_observations_witness :
  get_V_m_ (node_after (set_status_model negative_capacitance) sample_node)
    = get_V_m_ sample_node ∧
  get_AScurrents_sum_ (node_after (set_status_model negative_capacitance) sample_node)
    = get_AScurrents_sum_ sample_node ∧
  (archive (node_after (set_status_model negative_capacitance) sample_node)
     = archive sample_node →
   get_status_model ∅ (node_after (set_status_model negative_capacitance) sample_node)
     = get_status_model ∅ sample_node).
Proof.
  apply (failed_set_status_keeps_observations Parameters_set_model State_set_model
           Archiving_Node_set_status_model Parameters_get_model State_get_model
           Archiving_Node_get_status_model "recordables" (StringDatum "V_m")
           negative_capacitance ∅ sample_node
           (BadProperty "Capacitance must be strictly positive.")).
  unfold outcome. rewrite set_status_unfold. cbn [P_ sample_node].
  by rewrite Parameters_set_model_negative_capacitance.
Defined.
